(** * The Actions & Events screen  (src/app/(tabs)/index.tsx)

    A shallow embedding of the [HomeScreen] component: the fetch effect
    [fetchData], the per-row transform and card [renderEventCard], and the
    render function of the screen, over the JSON values the table API returns.

    JavaScript values are the values [JSON.parse] produces (the response body
    is typed [any] in the source), plus [undefined] for absent properties.
    What the engine leaves to the implementation (IEEE numbers and their
    printing, [Date.parse] on free-form strings, the locale-dependent
    formatters) is the interface [Host]; [refHost] at the end of the
    definitions is one such host (integers, ISO-8601 instants, en-US in UTC). *)

From Stdlib Require Import String Ascii List ZArith Bool Lia DecimalString.
Import ListNotations.
Local Open Scope string_scope.

(** ** Host interface *)

(** [Intl.DateTimeFormatOptions], the fields this screen sets. *)
Record DateTimeFormatOptions : Type := {
  year : option string;
  month : option string;
  day : option string;
  hour : option string;
  minute : option string;
  hour12 : option bool
}.

(** Time values are milliseconds since the epoch; [None] stands for NaN. *)
Class Host : Type := {
  number : Type;
  (* ToBoolean on a number: false exactly on +0, -0 and NaN *)
  Number_truthy : number -> bool;
  Number_isFinite : number -> bool;
  (* Number::toString, radix 10 *)
  Number_toString : number -> string;
  (* n > 0 *)
  Number_gt0 : number -> bool;
  StringToNumber : string -> number;
  (* the time value of [new Date(n)] *)
  TimeClip : number -> option Z;
  Date_parse : string -> option Z;
  (* Date.prototype.toLocaleDateString(undefined, options) *)
  toLocaleDateString : Z -> DateTimeFormatOptions -> string;
  (* Date.prototype.toLocaleTimeString(undefined, options) *)
  toLocaleTimeString : Z -> DateTimeFormatOptions -> string
}.

(** ** Values *)

Unset Elimination Schemes.

(** A value parsed from JSON, or [undefined]. *)
Inductive JsVal `{Host} : Type :=
| JUndefined
| JNull
| JBool (b : bool)
| JNum (n : number)
| JStr (s : string)
| JArr (elems : list JsVal)
| JObj (props : list (string * JsVal)).

Set Elimination Schemes.

(** Completion of an expression or statement: a value, or a thrown value. *)
Inductive Result `{Host} (A : Type) : Type :=
| Ok (a : A)
| Throw (e : JsVal).

Arguments Ok {_ A} a.
Arguments Throw {_ A} e.

Section Language.
Context `{Host}.

Definition bindR {A B} (r : Result A) (k : A -> Result B) : Result B :=
  match r with
  | Ok a => k a
  | Throw e => Throw e
  end.

Definition mkError (name message : string) : JsVal :=
  JObj [("name", JStr name); ("message", JStr message)].

Definition TypeError := mkError "TypeError".
Definition ReferenceError := mkError "ReferenceError".

(** ToBoolean. *)
Definition truthy (v : JsVal) : bool :=
  match v with
  | JUndefined | JNull => false
  | JBool b => b
  | JNum n => Number_truthy n
  | JStr s => negb (s =? "")
  | JArr _ | JObj _ => true
  end.

Definition nullish (v : JsVal) : bool :=
  match v with
  | JUndefined | JNull => true
  | _ => false
  end.

(** Own data properties of an object, first binding of a key. *)
Fixpoint lookup (k : string) (props : list (string * JsVal)) : JsVal :=
  match props with
  | [] => JUndefined
  | (k', v) :: rest => if k =? k' then v else lookup k rest
  end.

Definition hasOwn (k : string) (props : list (string * JsVal)) : bool :=
  existsb (fun p => k =? fst p) props.

(** [o[k]] for [o] neither null nor undefined.  The keys this screen reads
    are column names and codes, [values], [items], [id], [href], [data],
    [status], [response], [request], [message] and [__CANCEL__]: none of them
    is an index or [length], and the one that a prototype defines
    ([Array.prototype.values], a function) is only ever read through
    [?.[key]], where a function and [undefined] behave alike. *)
Definition getOwn (o : JsVal) (k : string) : JsVal :=
  match o with
  | JObj props => lookup k props
  | _ => JUndefined
  end.

(** [o.k]: a TypeError on null and undefined. *)
Definition getProp (o : JsVal) (k : string) : Result JsVal :=
  if nullish o
  then Throw (TypeError ("Cannot read properties of null or undefined (reading '" ++ k ++ "')"))
  else Ok (getOwn o k).

(** [o?.[k]]. *)
Definition optChain (o : JsVal) (k : string) : JsVal :=
  if nullish o then JUndefined else getOwn o k.

(** [a || b], the right operand evaluated only when needed. *)
Definition js_or (a : Result JsVal) (b : Result JsVal) : Result JsVal :=
  bindR a (fun x => if truthy x then Ok x else b).

Fixpoint joinWith (sep : string) (parts : list string) : string :=
  match parts with
  | [] => ""
  | [p] => p
  | p :: rest => p ++ sep ++ joinWith sep rest
  end.

(** Left-to-right evaluation of a list of completions. *)
Fixpoint sequence {A} (rs : list (Result A)) : Result (list A) :=
  match rs with
  | [] => Ok []
  | r :: rest =>
      bindR r (fun a => bindR (sequence rest) (fun l => Ok (a :: l)))
  end.

(** ToString.  An object parsed from JSON inherits [Object.prototype.toString]
    and [valueOf] unless it has own properties of these names, which are then
    not callable; OrdinaryToPrimitive skips what is not callable and what
    returns an object, and throws when nothing is left.  An array converts
    through [Array.prototype.join]. *)
Fixpoint ToString (v : JsVal) : Result string :=
  match v with
  | JUndefined => Ok "undefined"
  | JNull => Ok "null"
  | JBool true => Ok "true"
  | JBool false => Ok "false"
  | JNum n => Ok (Number_toString n)
  | JStr s => Ok s
  | JArr elems =>
      bindR (sequence (map (fun x => match x with
                                     | JUndefined | JNull => Ok ""
                                     | _ => ToString x
                                     end) elems))
            (fun parts => Ok (joinWith "," parts))
  | JObj props =>
      if hasOwn "toString" props
      then Throw (TypeError "Cannot convert object to primitive value")
      else Ok "[object Object]"
  end.

(** ToPrimitive: the result is never an array or an object. *)
Definition ToPrimitive (v : JsVal) : Result JsVal :=
  match v with
  | JArr _ | JObj _ => bindR (ToString v) (fun s => Ok (JStr s))
  | _ => Ok v
  end.

(** [v > 0]. *)
Definition js_gt0 (v : JsVal) : Result bool :=
  bindR (ToPrimitive v) (fun p =>
    match p with
    | JBool b => Ok b
    | JNum n => Ok (Number_gt0 n)
    | JStr s => Ok (Number_gt0 (StringToNumber s))
    | _ => Ok false
    end).

(** [v.length > 0], for [v] neither null nor undefined. *)
Definition length_gt0 (v : JsVal) : Result bool :=
  match v with
  | JArr elems => Ok (negb (Nat.eqb (length elems) 0))
  | JStr s => Ok (negb (s =? ""))
  | JObj props => js_gt0 (lookup "length" props)
  | _ => Ok false
  end.

(** *** JSON.stringify *)

Definition dquote : string := String (ascii_of_nat 34) "".

Definition hexDigit (n : nat) : ascii :=
  match n with
  | 0 => "0" | 1 => "1" | 2 => "2" | 3 => "3" | 4 => "4" | 5 => "5"
  | 6 => "6" | 7 => "7" | 8 => "8" | 9 => "9" | 10 => "a" | 11 => "b"
  | 12 => "c" | 13 => "d" | 14 => "e" | _ => "f"
  end%char.

Definition escapeChar (c : ascii) : string :=
  let n := nat_of_ascii c in
  match n with
  | 8 => "\b"
  | 9 => "\t"
  | 10 => "\n"
  | 12 => "\f"
  | 13 => "\r"
  | 34 => "\" ++ dquote
  | 92 => "\\"
  | _ => if Nat.ltb n 32
         then "\u00" ++ String (hexDigit (n / 16)) (String (hexDigit (n mod 16)) "")
         else String c ""
  end.

Fixpoint escapeString (s : string) : string :=
  match s with
  | EmptyString => ""
  | String c rest => escapeChar c ++ escapeString rest
  end.

Definition QuoteJSONString (s : string) : string :=
  dquote ++ escapeString s ++ dquote.

(** SerializeJSONProperty; [None] is [undefined].  No value here is callable,
    so a [toJSON] property is not consulted. *)
Fixpoint JSON_stringify (v : JsVal) : option string :=
  match v with
  | JUndefined => None
  | JNull => Some "null"
  | JBool true => Some "true"
  | JBool false => Some "false"
  | JNum n => Some (if Number_isFinite n then Number_toString n else "null")
  | JStr s => Some (QuoteJSONString s)
  | JArr elems =>
      Some ("[" ++ joinWith "," (map (fun x => match JSON_stringify x with
                                               | Some s => s
                                               | None => "null"
                                               end) elems) ++ "]")
  | JObj props =>
      Some ("{" ++ joinWith "," (flat_map (fun p => match JSON_stringify (snd p) with
                                                    | Some s => [QuoteJSONString (fst p) ++ ":" ++ s]
                                                    | None => []
                                                    end) props) ++ "}")
  end.

(** A value substituted into a template literal. *)
Definition templateOfOption (o : option string) : string :=
  match o with
  | Some s => s
  | None => "undefined"
  end.

(** *** Date *)

(** The time value of [new Date(value)]. *)
Definition Date_new (value : JsVal) : Result (option Z) :=
  bindR (ToPrimitive value) (fun p =>
    match p with
    | JStr s => Ok (Date_parse s)
    | JNum n => Ok (TimeClip n)
    | JBool true => Ok (Some 1%Z)
    | JBool false | JNull => Ok (Some 0%Z)
    | _ => Ok None
    end).

End Language.

(** ** The element tree *)

(** What a handler does when it runs. *)
Inductive Effect `{Host} : Type :=
| Linking_openURL (url : JsVal)
| console_warn (msg : string).

Inductive ImageSource `{Host} : Type :=
| require (asset : string)
| uri (u : JsVal).

Unset Elimination Schemes.

(** The JSX the component returns.  Styles are named after their entry in
    [styles]; children of a text element are the values interpolated in it. *)
Inductive Element `{Host} : Type :=
| Null
| View (style : string) (children : list Element)
| ThemedView (style : string) (children : list Element)
| ThemedText (type style : string) (children : list JsVal)
| Image (source : ImageSource) (style : string)
| MaterialCommunityIcons (name : string)
| Pressable (style : string) (onPress : Effect) (children : list Element)
| FlatList (data : JsVal)
           (renderItem : JsVal -> nat -> Result Element)
           (keyExtractor : JsVal -> JsVal -> Result JsVal).

Set Elimination Schemes.

(** ** HomeScreen *)

(** The three [useState] cells. *)
Record Hooks `{Host} : Type := {
  data : JsVal;
  loading : bool;
  error : option string
}.

(** An axios request configuration. *)
Record Request : Type := {
  url : string;
  headers : list (string * string);
  timeout : Z
}.

(** The cells together with the requests sent so far. *)
Record World `{Host} : Type := {
  hooks : Hooks;
  sent : list Request
}.

Section Screen.
Context `{Host}.

(** *** Per-row transform *)

Definition dateOptions : DateTimeFormatOptions :=
  {| year := Some "numeric"; month := Some "long"; day := Some "numeric";
     hour := None; minute := None; hour12 := None |}.

Definition timeOptions : DateTimeFormatOptions :=
  {| year := None; month := None; day := None;
     hour := Some "numeric"; minute := Some "2-digit"; hour12 := Some true |}.

(** [item.values?.[human] || item.values?.[code]] *)
Definition resolveField (item : JsVal) (human code : string) : Result JsVal :=
  js_or (bindR (getProp item "values") (fun values => Ok (optChain values human)))
        (bindR (getProp item "values") (fun values => Ok (optChain values code))).

(** Lines 69-89: the two formatted strings for a resolved start value. *)
Definition formatStart (eventStartDateTimeString : JsVal) : string * string :=
  let formattedDate := "Date not available" in
  let formattedTime := "Time not available" in
  if truthy eventStartDateTimeString then
    match Date_new eventStartDateTimeString with
    | Ok None => ("Invalid Date", "Invalid Time")
    | Ok (Some dateObj) =>
        (toLocaleDateString dateObj dateOptions,
         toLocaleTimeString dateObj timeOptions)
    | Throw _ => ("Error in date", "Error in time")
    end
  else (formattedDate, formattedTime).

(** The locals of [renderEventCard]. *)
Record DisplayEvent : Type := {
  eventStartDateTimeString : JsVal;
  eventDescription : JsVal;
  signUpLink : JsVal;
  graphicUrl : JsVal;
  formattedDate : string;
  formattedTime : string
}.

Definition displayEvent (item : JsVal) : Result DisplayEvent :=
  bindR (resolveField item "Start" "c-xM1UXlWtET") (fun start =>
  bindR (resolveField item "Description" "c-CuhtPto9h7") (fun description =>
  bindR (resolveField item "Sign Up Link" "c-oQ9f2MSLrG") (fun link =>
  bindR (resolveField item "GraphicURL" "c-65xmsGtRJz") (fun graphic =>
  Ok {| eventStartDateTimeString := start;
        eventDescription := description;
        signUpLink := link;
        graphicUrl := graphic;
        formattedDate := fst (formatStart start);
        formattedTime := snd (formatStart start) |})))).

Definition handleSignUp (signUpLink : JsVal) : Effect :=
  if truthy signUpLink
  then Linking_openURL signUpLink
  else console_warn "Sign Up Link is missing for this event.".

Definition card (ev : DisplayEvent) : Element :=
  View "card"
    [ (if truthy (graphicUrl ev)
       then Image (uri (graphicUrl ev)) "cardImage"
       else Null);
      View "cardContent"
        [ View "dateTimeContainer"
            [ MaterialCommunityIcons "calendar-month-outline";
              ThemedText "default" "cardText" [JStr "Date: "; JStr (formattedDate ev)] ];
          View "dateTimeContainer"
            [ MaterialCommunityIcons "clock-time-four-outline";
              ThemedText "default" "cardText" [JStr "Time: "; JStr (formattedTime ev)] ];
          (if truthy (eventDescription ev)
           then ThemedText "default" "cardText" [eventDescription ev]
           else Null);
          (if truthy (signUpLink ev)
           then Pressable "signUpButton" (handleSignUp (signUpLink ev))
                  [ThemedText "default" "signUpButtonText" [JStr "Sign Up"]]
           else ThemedText "default" "cardText" [JStr "(No sign-up link provided)"]) ] ].

Definition renderEventCard (item : JsVal) (index : nat) : Result Element :=
  bindR (displayEvent item) (fun ev => Ok (card ev)).

(** [item.id || item.href || Math.random().toString()], the random string
    supplied by the caller. *)
Definition keyExtractor (item : JsVal) (random : JsVal) : Result JsVal :=
  js_or (getProp item "id") (js_or (getProp item "href") (Ok random)).

(** *** Render *)

Definition header : Element :=
  View "headerContainer"
    [ Image (require "../../assets/images/both-w.png") "logo";
      ThemedText "title" "headerTitle" [JStr "Actions & Events"] ].

(** [data && data.items && data.items.length > 0], as a condition. *)
Definition hasItems (data : JsVal) : Result bool :=
  if truthy data then
    bindR (getProp data "items") (fun items =>
      if truthy items then length_gt0 items else Ok false)
  else Ok false.

(** [if (error)]: a non-empty message. *)
Definition errorShown (error : option string) : option string :=
  match error with
  | Some msg => if msg =? "" then None else Some msg
  | None => None
  end.

Definition HomeScreen (st : Hooks) : Result Element :=
  if loading st then
    Ok (ThemedView "container"
          [ header;
            ThemedText "default" "" [JStr "Loading event data from Coda..."] ])
  else
    match errorShown (error st) with
    | Some msg =>
        Ok (ThemedView "container"
              [ header;
                ThemedText "default" "color: red" [JStr "Error: "; JStr msg] ])
    | None =>
        bindR (hasItems (data st)) (fun nonEmpty =>
          Ok (ThemedView "container"
                [ header;
                  if nonEmpty
                  then FlatList (getOwn (data st) "items") renderEventCard keyExtractor
                  else ThemedText "default" "" [JStr "No events found."] ]))
    end.

End Screen.

(** *** What FlatList mounts *)

Section Rows.
Context `{Host}.

Fixpoint mapi {A B} (f : A -> nat -> B) (l : list A) (i : nat) : list B :=
  match l with
  | [] => []
  | x :: rest => f x i :: mapi f rest (S i)
  end.

(** FlatList calls [renderItem({item, index})] for the elements of its
    [data] array, in index order. *)
Definition flatListRows (el : Element) : list (Result Element) :=
  match el with
  | FlatList (JArr elems) renderItem _ => mapi renderItem elems 0
  | _ => []
  end.

(** The rows of every list directly under a container. *)
Definition listRows (screen : Element) : list (Result Element) :=
  match screen with
  | ThemedView _ children => flat_map flatListRows children
  | _ => []
  end.

(** The text elements directly under a container. *)
Definition screenTexts (screen : Element) : list (list JsVal) :=
  match screen with
  | ThemedView _ children =>
      flat_map (fun c => match c with
                         | ThemedText _ _ t => [t]
                         | _ => []
                         end) children
  | _ => []
  end.

(** The children of the [cardContent] view of a card. *)
Definition cardContent (c : Element) : list Element :=
  match c with
  | View _ [_; View _ content] => content
  | _ => []
  end.

Definition isSignUpButton (el : Element) : bool :=
  match el with
  | Pressable _ (Linking_openURL _) [ThemedText _ _ [JStr label]] => label =? "Sign Up"
  | _ => false
  end.

Definition isPressable (el : Element) : bool :=
  match el with
  | Pressable _ _ _ => true
  | _ => false
  end.

Definition isPlaceholder (el : Element) : bool :=
  match el with
  | ThemedText _ _ [JStr t] => t =? "(No sign-up link provided)"
  | _ => false
  end.

End Rows.

(** ** The fetch effect *)

Section Fetch.
Context `{Host}.

(** Statements of [fetchData]: they read and write the cells, send requests,
    and complete normally or by throwing. *)
Definition M (A : Type) : Type := World -> Result A * World.

Definition retM {A} (a : A) : M A := fun w => (Ok a, w).

Definition bindM {A B} (m : M A) (k : A -> M B) : M B :=
  fun w => match m w with
           | (Ok a, w') => k a w'
           | (Throw e, w') => (Throw e, w')
           end.

Definition liftR {A} (r : Result A) : M A := fun w => (r, w).

Notation "x <- m ;; k" := (bindM m (fun x => k))
  (at level 61, m at next level, right associativity).
Notation "m ;; k" := (bindM m (fun _ => k))
  (at level 61, right associativity).

Definition setData (d : JsVal) : M unit :=
  fun w => (Ok tt, {| hooks := {| data := d;
                                  loading := loading (hooks w);
                                  error := error (hooks w) |};
                      sent := sent w |}).

Definition setLoading (b : bool) : M unit :=
  fun w => (Ok tt, {| hooks := {| data := data (hooks w);
                                  loading := b;
                                  error := error (hooks w) |};
                      sent := sent w |}).

Definition setError (msg : option string) : M unit :=
  fun w => (Ok tt, {| hooks := {| data := data (hooks w);
                                  loading := loading (hooks w);
                                  error := msg |};
                      sent := sent w |}).

(** [try { body } catch (e) { handler } finally { fin }] *)
Definition tryCatchFinally {A} (body : M A) (handler : JsVal -> M A) (fin : M unit) : M A :=
  fun w =>
    let '(r, w1) := match body w with
                    | (Ok a, w') => (Ok a, w')
                    | (Throw e, w') => handler e w'
                    end in
    match fin w1 with
    | (Ok _, w2) => (r, w2)
    | (Throw e, w2) => (Throw e, w2)
    end.

(** [await axios.get(url, config)]: the request is sent and the promise
    settles as the network decides, fulfilled with a response or rejected. *)
Definition axios_get (net : Request -> Result JsVal) (config : Request) : M JsVal :=
  fun w => (net config, {| hooks := hooks w; sent := (sent w ++ [config])%list |}).

(** [axios.isCancel(e)] is [!!(e && e.__CANCEL__)]. *)
Definition axios_isCancel (e : JsVal) : bool :=
  truthy e && truthy (getOwn e "__CANCEL__").

Definition fetchData (EXPO_PUBLIC_CODA_API_TOKEN : JsVal)
                     (net : Request -> Result JsVal) : M unit :=
  setLoading true ;;
  setError None ;;
  setData JNull ;;
  tryCatchFinally
    (let apiUrl := "https://coda.io/apis/v1/docs/OySK5JOQh-/tables/table-X_KTN98R_x/rows" in
     let apiToken := EXPO_PUBLIC_CODA_API_TOKEN in
     let requestTimeout := 30000%Z in
     if negb (truthy apiToken) then
       setError (Some "API Token is not configured. Please set EXPO_PUBLIC_CODA_API_TOKEN in your .env file.") ;;
       setLoading false
       (* return; the finally block still runs *)
     else
       bearer <- liftR (ToString apiToken) ;;
       let requestHeaders := [ ("Authorization", "Bearer " ++ bearer);
                               ("Accept", "application/json") ] in
       response <- axios_get net {| url := apiUrl;
                                    headers := requestHeaders;
                                    timeout := requestTimeout |} ;;
       body <- liftR (getProp response "data") ;;
       setData body)
    (fun e =>
       if axios_isCancel e then
         (* The argument of setError is a template literal over
            requestTimeout / 1000.  requestTimeout is a const of the try
            block: no binding of that name is in scope in the catch clause,
            so evaluating the literal throws before setError is called. *)
         liftR (Throw (ReferenceError "requestTimeout is not defined"))
       else
         response <- liftR (getProp e "response") ;;
         if truthy response then
           status <- liftR (getProp response "status") ;;
           statusText <- liftR (ToString status) ;;
           body <- liftR (getProp response "data") ;;
           setError (Some ("Server error! Status: " ++ statusText ++ ". Message: "
                           ++ templateOfOption (JSON_stringify body)))
         else
           request <- liftR (getProp e "request") ;;
           if truthy request then
             setError (Some "No response received from Coda Table API (axios).")
           else
             message <- liftR (getProp e "message") ;;
             messageText <- liftR (ToString message) ;;
             setError (Some ("Error: " ++ messageText)))
    (setLoading false).

(** The cells as [useState] initialises them. *)
Definition initialWorld : World :=
  {| hooks := {| data := JNull; loading := true; error := None |}; sent := [] |}.

(** The effect of [useEffect(..., [])]: one call of [fetchData] on mount. *)
Definition mount (token : JsVal) (net : Request -> Result JsVal) : Result unit * World :=
  fetchData token net initialWorld.

(** [s] occurs in [t]. *)
Definition Substring (s t : string) : Prop :=
  exists before after, t = before ++ s ++ after.

End Fetch.

(** ** A reference host

    Numbers are the integers and NaN; [Date.parse] reads the ISO-8601 forms
    [YYYY-MM-DD] and [YYYY-MM-DDTHH:mm:ssZ]; the formatters are those of the
    en-US locale in the UTC time zone. *)

Module RefHost.
Local Open Scope Z_scope.

Definition decimal (z : Z) : string := NilZero.string_of_int (Z.to_int z).

Definition digitValue (c : ascii) : option Z :=
  let n := nat_of_ascii c in
  if (Nat.leb 48 n && Nat.leb n 57)%bool then Some (Z.of_nat n - 48) else None.

Fixpoint digitsFrom (acc : Z) (s : string) : option Z :=
  match s with
  | EmptyString => Some acc
  | String c rest =>
      match digitValue c with
      | Some d => digitsFrom (10 * acc + d) rest
      | None => None
      end
  end.

(** A non-empty run of decimal digits. *)
Definition digits (s : string) : option Z :=
  match s with
  | EmptyString => None
  | _ => digitsFrom 0 s
  end.

Definition stringToNumber (s : string) : option Z :=
  match s with
  | EmptyString => Some 0
  | _ => digitsFrom 0 s
  end.

Definition msPerDay : Z := 86400000.

(** Days since 1970-01-01 of a date of the proleptic Gregorian calendar. *)
Definition daysFromCivil (y m d : Z) : Z :=
  let y' := if m <=? 2 then y - 1 else y in
  let era := y' / 400 in
  let yoe := y' - era * 400 in
  let doy := (153 * (if 2 <? m then m - 3 else m + 9) + 2) / 5 + d - 1 in
  let doe := yoe * 365 + yoe / 4 - yoe / 100 + doy in
  era * 146097 + doe - 719468.

Definition civilFromDays (z : Z) : Z * Z * Z :=
  let z' := z + 719468 in
  let era := z' / 146097 in
  let doe := z' - era * 146097 in
  let yoe := (doe - doe / 1460 + doe / 36524 - doe / 146096) / 365 in
  let doy := doe - (365 * yoe + yoe / 4 - yoe / 100) in
  let mp := (5 * doy + 2) / 153 in
  let d := doy - (153 * mp + 2) / 5 + 1 in
  let m := if mp <? 10 then mp + 3 else mp - 9 in
  ((if m <=? 2 then yoe + era * 400 + 1 else yoe + era * 400), m, d).

Definition makeTime (y m d hh mm ss : Z) : option Z :=
  let days := daysFromCivil y m d in
  match civilFromDays days with
  | (y', m', d') =>
      if ((y' =? y) && (m' =? m) && (d' =? d)
          && (hh <=? 23) && (mm <=? 59) && (ss <=? 59))%bool
      then Some (days * msPerDay + hh * 3600000 + mm * 60000 + ss * 1000)
      else None
  end.

Definition charAt (s : string) (i : nat) (c : ascii) : bool :=
  match String.get i s with
  | Some c' => Ascii.eqb c c'
  | None => false
  end.

Definition field (s : string) (start len : nat) : option Z :=
  digits (substring start len s).

Definition parseDateOnly (s : string) : option Z :=
  if (charAt s 4 "-" && charAt s 7 "-")%bool then
    match field s 0 4, field s 5 2, field s 8 2 with
    | Some y, Some m, Some d => makeTime y m d 0 0 0
    | _, _, _ => None
    end
  else None.

Definition parseDateTime (s : string) : option Z :=
  if (charAt s 4 "-" && charAt s 7 "-" && charAt s 10 "T"
      && charAt s 13 ":" && charAt s 16 ":" && charAt s 19 "Z")%bool then
    match field s 0 4, field s 5 2, field s 8 2,
          field s 11 2, field s 14 2, field s 17 2 with
    | Some y, Some m, Some d, Some hh, Some mm, Some ss => makeTime y m d hh mm ss
    | _, _, _, _, _, _ => None
    end
  else None.

Definition parse (s : string) : option Z :=
  match String.length s with
  | 10%nat => parseDateOnly s
  | 20%nat => parseDateTime s
  | _ => None
  end.

Definition monthName (m : Z) : string :=
  match m with
  | 1 => "January" | 2 => "February" | 3 => "March" | 4 => "April"
  | 5 => "May" | 6 => "June" | 7 => "July" | 8 => "August"
  | 9 => "September" | 10 => "October" | 11 => "November" | _ => "December"
  end.

Definition twoDigits (n : Z) : string :=
  if n <? 10 then "0" ++ decimal n else decimal n.

Definition isLong (o : option string) : bool :=
  match o with
  | Some v => (v =? "long")%string
  | None => false
  end.

Definition dateString (t : Z) (options : DateTimeFormatOptions) : string :=
  match civilFromDays (t / msPerDay) with
  | (y, m, d) =>
      if isLong (month options)
      then monthName m ++ " " ++ decimal d ++ ", " ++ decimal y
      else decimal m ++ "/" ++ decimal d ++ "/" ++ decimal y
  end.

Definition timeString (t : Z) (options : DateTimeFormatOptions) : string :=
  let ms := t mod msPerDay in
  let hh := ms / 3600000 in
  let mm := (ms / 60000) mod 60 in
  match hour12 options with
  | Some false => twoDigits hh ++ ":" ++ twoDigits mm
  | _ =>
      decimal (if hh mod 12 =? 0 then 12 else hh mod 12) ++ ":" ++ twoDigits mm
      ++ " " ++ (if hh <? 12 then "AM" else "PM")
  end.

Definition timeClip (n : option Z) : option Z :=
  match n with
  | Some z => if Z.abs z <=? 8640000000000000 then Some z else None
  | None => None
  end.

#[export] Instance refHost : Host := {|
  number := option Z;
  Number_truthy := fun n => match n with Some z => negb (z =? 0) | None => false end;
  Number_isFinite := fun n => match n with Some _ => true | None => false end;
  Number_toString := fun n => match n with Some z => decimal z | None => "NaN" end;
  Number_gt0 := fun n => match n with Some z => 0 <? z | None => false end;
  StringToNumber := stringToNumber;
  TimeClip := timeClip;
  Date_parse := parse;
  toLocaleDateString := dateString;
  toLocaleTimeString := timeString
|}.

End RefHost.

Import RefHost.

(** ** Derived notions used to state the properties *)

Section Notions.
Context `{Host}.

(** The value [a || b] of a two-key lookup in a [values] mapping. *)
Definition preferred (values : JsVal) (human code : string) : JsVal :=
  if truthy (optChain values human)
  then optChain values human
  else optChain values code.

(** The two formatted strings of a row, when the transform completes. *)
Definition formatted (item : JsVal) : option (string * string) :=
  match displayEvent item with
  | Ok ev => Some (formattedDate ev, formattedTime ev)
  | Throw _ => None
  end.

(** The request [fetchData] sends for a token. *)
Definition apiRequest (token : string) : Request :=
  {| url := "https://coda.io/apis/v1/docs/OySK5JOQh-/tables/table-X_KTN98R_x/rows";
     headers := [ ("Authorization", "Bearer " ++ token);
                  ("Accept", "application/json") ];
     timeout := 30000 |}.

Definition loadingScreen : Element :=
  ThemedView "container"
    [ header; ThemedText "default" "" [JStr "Loading event data from Coda..."] ].

Definition errorScreen (msg : string) : Element :=
  ThemedView "container"
    [ header; ThemedText "default" "color: red" [JStr "Error: "; JStr msg] ].

Definition emptyScreen : Element :=
  ThemedView "container"
    [ header; ThemedText "default" "" [JStr "No events found."] ].

Definition listScreen (items : JsVal) : Element :=
  ThemedView "container"
    [ header; FlatList items renderEventCard keyExtractor ].

(** The last child of [cardContent]: the button or the placeholder. *)
Definition signUpSlot (c : Element) : Element :=
  nth 3 (cardContent c) Null.

Definition signUpButton (link : JsVal) : Element :=
  Pressable "signUpButton" (Linking_openURL link)
    [ThemedText "default" "signUpButtonText" [JStr "Sign Up"]].

Definition placeholder : Element :=
  ThemedText "default" "cardText" [JStr "(No sign-up link provided)"].

End Notions.

(** ** Sample data *)

Module Samples.

Definition row (values : list (string * JsVal)) : JsVal :=
  JObj [("id", JStr "i-1"); ("values", JObj values)].

(** What axios rejects with on a 500 whose body is the object with the
    single member msg = fail. *)
Definition failBody : JsVal := JObj [("msg", JStr "fail")].

Definition status500 : number := Some 500%Z.

Definition failResponse : JsVal :=
  JObj [("status", JNum status500); ("data", failBody)].

Definition serverError : JsVal :=
  JObj [ ("message", JStr "Request failed with status code 500");
         ("request", JObj []);
         ("response", failResponse) ].

(** A cancellation as axios marks it. *)
Definition cancelError : JsVal :=
  JObj [ ("message", JStr "canceled"); ("__CANCEL__", JBool true) ].

(** What axios rejects with when its own timeout fires: no response, and no
    cancellation mark. *)
Definition timeoutError : JsVal :=
  JObj [ ("message", JStr "timeout of 30000ms exceeded");
         ("code", JStr "ECONNABORTED");
         ("request", JObj []) ].

Definition success (items : list JsVal) : JsVal :=
  JObj [ ("status", JNum (Some 200%Z));
         ("data", JObj [("items", JArr items)]) ].

Definition march : JsVal := row [("Start", JStr "2025-03-01T18:30:00Z")].
Definition unparseable : JsVal := row [("Start", JStr "not-a-date")].
Definition emptyCode : JsVal := row [("c-xM1UXlWtET", JStr "")].
Definition emptyStart : JsVal := row [("Start", JStr ""); ("Description", JStr "Canvass")].
Definition noStart : JsVal := row [("Description", JStr "Canvass")].
Definition bothDescriptions : JsVal :=
  row [("Description", JStr "A"); ("c-CuhtPto9h7", JStr "B")].
Definition emptyDescription : JsVal :=
  row [("Description", JStr ""); ("c-CuhtPto9h7", JStr "B")].
Definition objectStart : JsVal :=
  row [("Start", JObj [("toString", JStr "2025-03-01")])].
Definition withLink : JsVal :=
  row [("Sign Up Link", JStr "https://example.org/signup")].

End Samples.

(** ** Parts of a card and further sample data *)

Section Card_parts.
Context `{Host}.

(** The first child of a card: the image, or nothing. *)
Definition imageSlot (c : Element) : Element :=
  match c with
  | View _ (first :: _) => first
  | _ => Null
  end.

Definition dateLine (c : Element) : Element := nth 0 (cardContent c) Null.
Definition timeLine (c : Element) : Element := nth 1 (cardContent c) Null.
Definition descriptionSlot (c : Element) : Element := nth 2 (cardContent c) Null.

Definition isNull (el : Element) : bool :=
  match el with
  | Null => true
  | _ => false
  end.

(** The locals of [renderEventCard] when no field resolves. *)
Definition blankEvent : DisplayEvent :=
  {| eventStartDateTimeString := JUndefined;
     eventDescription := JUndefined;
     signUpLink := JUndefined;
     graphicUrl := JUndefined;
     formattedDate := "Date not available";
     formattedTime := "Time not available" |}.

End Card_parts.

Module MoreSamples.

(** A failure before any request left the device. *)
Definition setupError : JsVal := JObj [("message", JStr "Network Error")].

(** A response whose body is not the expected object. *)
Definition status200 : number := Some 200%Z.

Definition htmlResponse : JsVal :=
  JObj [("status", JNum status200); ("data", JStr "<html></html>")].

Definition bareRow : JsVal := JObj [("id", JStr "i-7"); ("href", JStr "/rows/i-7")].
Definition hrefOnly : JsVal := JObj [("href", JStr "/rows/i-8")].
Definition nullValues : JsVal := JObj [("id", JStr "i-9"); ("values", JNull)].
Definition pictured : JsVal :=
  Samples.row [("GraphicURL", JStr "https://example.org/a.png");
               ("Description", JStr "Canvass")].

End MoreSamples.

(** * Properties *)

Example refHost_parse : parse "2025-03-01T18:30:00Z" = Some 1740853800000%Z.
Proof. vm_compute. reflexivity. Qed.

Example refHost_date :
  dateString 1740853800000 dateOptions = "March 1, 2025"
  /\ timeString 1740853800000 timeOptions = "6:30 PM".
Proof. vm_compute. split; reflexivity. Qed.

Example refHost_unparseable : parse "not-a-date" = None /\ parse "" = None.
Proof. vm_compute. split; reflexivity. Qed.

Example march_formatted :
  formatted Samples.march = Some ("March 1, 2025", "6:30 PM").
Proof. vm_compute. reflexivity. Qed.

(** ** Strings *)

Lemma append_assoc (a b c : string) : (a ++ b) ++ c = a ++ (b ++ c).
Proof. induction a as [|x a IH]; simpl; [reflexivity | now rewrite IH]. Qed.

Lemma append_empty_r (a : string) : a ++ "" = a.
Proof. induction a as [|x a IH]; simpl; [reflexivity | now rewrite IH]. Qed.

Lemma Substring_middle (a s b : string) : Substring s (a ++ s ++ b).
Proof. exists a, b. reflexivity. Qed.

Lemma Substring_end (a s : string) : Substring s (a ++ s).
Proof. exists a, "". now rewrite append_empty_r. Qed.

Lemma eqb_empty_false (s : string) : s <> "" -> (s =? "") = false.
Proof. intros Hs. now apply String.eqb_neq. Qed.

Lemma append_cons_nonempty (a : string) (c : ascii) (b : string) :
  a ++ String c b <> "".
Proof. destruct a; discriminate. Qed.

(** ** Property access and field resolution *)

Section Resolution.
Context `{Host}.

Lemma getProp_ok (o : JsVal) (k : string) :
  nullish o = false -> getProp o k = Ok (getOwn o k).
Proof. intros Ho. unfold getProp. now rewrite Ho. Qed.

Lemma getOwn_defined_not_nullish (o v : JsVal) (k : string) :
  getOwn o k = v -> v <> JUndefined -> nullish o = false.
Proof.
  intros Hv Hne. destruct o; simpl in *; try reflexivity; congruence.
Qed.

Lemma truthy_not_undefined (v : JsVal) : truthy v = true -> v <> JUndefined.
Proof. intros Hv ->. discriminate. Qed.

Lemma resolveField_ok (item : JsVal) (human code : string) :
  nullish item = false ->
  resolveField item human code = Ok (preferred (getOwn item "values") human code).
Proof.
  intros Hitem. unfold resolveField, js_or, preferred.
  rewrite (getProp_ok _ _ Hitem). simpl.
  destruct (truthy (optChain (getOwn item "values") human)); reflexivity.
Qed.

Lemma displayEvent_ok (item : JsVal) :
  nullish item = false ->
  let values := getOwn item "values" in
  let start := preferred values "Start" "c-xM1UXlWtET" in
  displayEvent item =
  Ok {| eventStartDateTimeString := start;
        eventDescription := preferred values "Description" "c-CuhtPto9h7";
        signUpLink := preferred values "Sign Up Link" "c-oQ9f2MSLrG";
        graphicUrl := preferred values "GraphicURL" "c-65xmsGtRJz";
        formattedDate := fst (formatStart start);
        formattedTime := snd (formatStart start) |}.
Proof.
  intros Hitem. unfold displayEvent.
  rewrite !(resolveField_ok _ _ _ Hitem). reflexivity.
Qed.

Lemma displayEvent_throws (item : JsVal) :
  nullish item = true -> exists e, displayEvent item = Throw e.
Proof.
  intros Hitem. unfold displayEvent, resolveField, js_or, getProp.
  rewrite Hitem. simpl. eexists. reflexivity.
Qed.

End Resolution.

Section Rows_facts.
Context `{Host}.

Lemma displayEvent_inv (item : JsVal) (ev : DisplayEvent) :
  displayEvent item = Ok ev -> nullish item = false.
Proof.
  intros Hev. destruct (nullish item) eqn:Hn; [|reflexivity].
  destruct (displayEvent_throws item Hn) as [e He]. congruence.
Qed.

Lemma lookup_absent (k : string) (props : list (string * JsVal)) :
  hasOwn k props = false -> lookup k props = JUndefined.
Proof.
  induction props as [|[k' v] rest IH]; simpl; [reflexivity|].
  intros Hk. apply orb_false_iff in Hk as [Hhead Hrest].
  rewrite Hhead. now apply IH.
Qed.

Lemma formatStart_falsy (start : JsVal) :
  truthy start = false ->
  formatStart start = ("Date not available", "Time not available").
Proof. intros Hs. unfold formatStart. now rewrite Hs. Qed.

Lemma Date_new_string (s : string) : Date_new (JStr s) = Ok (Date_parse s).
Proof. reflexivity. Qed.

(** Constructing a date throws only on an array or an object. *)
Lemma Date_new_throws (v e : JsVal) :
  Date_new v = Throw e ->
  (exists elems, v = JArr elems) \/ (exists props, v = JObj props).
Proof.
  destruct v as [| |[|]|n|s|elems|props]; simpl; try discriminate; eauto.
Qed.

End Rows_facts.

(** ** C4: field resolution *)

(** C4, as stated, fails: with both keys present and an empty string under
    the human-readable key, the code key's value is the resolved one. *)
Lemma human_key_does_not_always_win :
  ~ (forall (item : JsVal) (props : list (string * JsVal)) (human code : string),
        getOwn item "values" = JObj props ->
        hasOwn human props = true ->
        hasOwn code props = true ->
        resolveField item human code = Ok (lookup human props)).
Proof.
  intros Hclaim.
  specialize (Hclaim Samples.emptyDescription
                     [("Description", JStr ""); ("c-CuhtPto9h7", JStr "B")]
                     "Description" "c-CuhtPto9h7" eq_refl eq_refl eq_refl).
  change (Ok (JStr "B") = Ok (JStr "")) in Hclaim. discriminate Hclaim.
Qed.

Example both_descriptions_resolve_to_A :
  resolveField Samples.bothDescriptions "Description" "c-CuhtPto9h7" = Ok (JStr "A").
Proof. reflexivity. Qed.

(** C4 (amended): each of the four fields of a row is the value under the
    human-readable key when that value is truthy, and the value under the
    code key otherwise; so an absent human-readable key falls back to the
    code key, two absent keys give undefined, and a truthy human-readable
    value wins over whatever the code key holds. *)
Theorem field_resolution `{Host} (item : JsVal) (props : list (string * JsVal)) :
  getOwn item "values" = JObj props ->
  exists ev,
    displayEvent item = Ok ev
    /\ eventStartDateTimeString ev = preferred (JObj props) "Start" "c-xM1UXlWtET"
    /\ eventDescription ev = preferred (JObj props) "Description" "c-CuhtPto9h7"
    /\ signUpLink ev = preferred (JObj props) "Sign Up Link" "c-oQ9f2MSLrG"
    /\ graphicUrl ev = preferred (JObj props) "GraphicURL" "c-65xmsGtRJz"
    /\ forall human code,
         (truthy (lookup human props) = true ->
          preferred (JObj props) human code = lookup human props)
         /\ (truthy (lookup human props) = false ->
             preferred (JObj props) human code = lookup code props)
         /\ (hasOwn human props = false ->
             preferred (JObj props) human code = lookup code props)
         /\ (hasOwn human props = false -> hasOwn code props = false ->
             preferred (JObj props) human code = JUndefined).
Proof.
  intros Hvalues.
  assert (Hitem : nullish item = false).
  { apply (getOwn_defined_not_nullish _ _ _ Hvalues). discriminate. }
  eexists. split; [apply (displayEvent_ok item Hitem)|].
  cbn [eventStartDateTimeString eventDescription signUpLink graphicUrl].
  rewrite Hvalues. repeat (split; [reflexivity|]).
  intros human code. unfold preferred. cbn [optChain nullish getOwn].
  repeat split.
  - now intros ->.
  - now intros ->.
  - intros Hh. now rewrite (lookup_absent _ _ Hh).
  - intros Hh Hc. now rewrite (lookup_absent _ _ Hh), (lookup_absent _ _ Hc).
Qed.

Lemma field_resolution_witness :
  exists ev,
    displayEvent Samples.bothDescriptions = Ok ev
    /\ eventDescription ev = JStr "A".
Proof.
  destruct (field_resolution Samples.bothDescriptions
              [("Description", JStr "A"); ("c-CuhtPto9h7", JStr "B")] eq_refl)
    as (ev & Hev & _ & Hdesc & _).
  exists ev. split; [exact Hev | exact Hdesc].
Defined.

(** ** C5: the sentinels of the start field *)

(** C5, as stated, fails: a row whose resolved start value is the empty
    string, a string that parses to no instant, gets the not-available
    sentinels, not the invalid ones. *)
Lemma empty_start_is_not_invalid :
  ~ (forall (item : JsVal) (ev : DisplayEvent) (s : string),
        displayEvent item = Ok ev ->
        eventStartDateTimeString ev = JStr s ->
        Date_parse s = None ->
        formattedDate ev = "Invalid Date" /\ formattedTime ev = "Invalid Time").
Proof.
  intros Hclaim.
  destruct (Hclaim Samples.emptyCode _ "" eq_refl eq_refl eq_refl) as [Hdate _].
  vm_compute in Hdate. discriminate Hdate.
Qed.

(** C5 (amended): a row whose resolved start value is falsy (undefined when
    neither key is present, or null, false, 0 or the empty string) has the
    not-available sentinels; a row whose resolved start value is a non-empty
    string that does not parse to an instant has the invalid sentinels. *)
Theorem start_sentinels `{Host} (item : JsVal) (ev : DisplayEvent) :
  displayEvent item = Ok ev ->
  (truthy (eventStartDateTimeString ev) = false ->
   formattedDate ev = "Date not available"
   /\ formattedTime ev = "Time not available")
  /\ (forall s, eventStartDateTimeString ev = JStr s ->
                s <> "" ->
                Date_parse s = None ->
                formattedDate ev = "Invalid Date"
                /\ formattedTime ev = "Invalid Time").
Proof.
  intros Hev. pose proof (displayEvent_inv _ _ Hev) as Hitem.
  rewrite (displayEvent_ok item Hitem) in Hev. injection Hev as <-.
  cbn [eventStartDateTimeString formattedDate formattedTime].
  set (start := preferred (getOwn item "values") "Start" "c-xM1UXlWtET").
  split.
  - intros Hfalsy. now rewrite (formatStart_falsy _ Hfalsy).
  - intros s Hs Hne Hparse. rewrite Hs. unfold formatStart.
    cbn [truthy]. rewrite (eqb_empty_false _ Hne). cbn [negb].
    rewrite Date_new_string, Hparse. split; reflexivity.
Qed.

Lemma start_sentinels_witness :
  (exists ev, displayEvent Samples.noStart = Ok ev
              /\ formattedDate ev = "Date not available"
              /\ formattedTime ev = "Time not available")
  /\ (exists ev, displayEvent Samples.unparseable = Ok ev
                 /\ formattedDate ev = "Invalid Date"
                 /\ formattedTime ev = "Invalid Time").
Proof.
  split.
  - eexists. split; [reflexivity|].
    apply (proj1 (start_sentinels Samples.noStart _ eq_refl)). reflexivity.
  - eexists. split; [reflexivity|].
    apply (proj2 (start_sentinels Samples.unparseable _ eq_refl) "not-a-date").
    + reflexivity.
    + discriminate.
    + reflexivity.
Defined.

(** ** C2: the values the formatted strings can take *)

Lemma monthName_not_E (m : Z) (rest : string) :
  monthName m <> String "E" rest.
Proof.
  unfold monthName.
  repeat match goal with
         | |- context [match ?x with _ => _ end] => destruct x
         end; discriminate.
Qed.

Lemma refHost_date_not_error (t : Z) :
  dateString t dateOptions <> "Error in date".
Proof.
  unfold dateString. destruct (civilFromDays (t / msPerDay)) as [[y m] d].
  cbn [isLong month dateOptions String.eqb Ascii.eqb Bool.eqb].
  intros Heq. destruct (monthName m) as [|c rest] eqn:Hm.
  - discriminate Heq.
  - cbn in Heq. injection Heq as Hc _. subst c.
    exact (monthName_not_E m rest Hm).
Qed.

(** C2, as stated, fails: when constructing the date throws, the catch
    clause assigns a fourth pair of strings. *)
Lemma formatted_date_not_three_valued :
  ~ (forall (item : JsVal) (ev : DisplayEvent),
        displayEvent item = Ok ev ->
        formattedDate ev = "Date not available"
        \/ formattedDate ev = "Invalid Date"
        \/ exists t, formattedDate ev = toLocaleDateString t dateOptions).
Proof.
  intros Hclaim.
  destruct (Hclaim Samples.objectStart _ eq_refl) as [Hd | [Hd | [t Hd]]].
  - vm_compute in Hd. discriminate Hd.
  - vm_compute in Hd. discriminate Hd.
  - apply (refHost_date_not_error t). symmetry. exact Hd.
Qed.

Example object_start_formatted :
  formatted Samples.objectStart = Some ("Error in date", "Error in time").
Proof. reflexivity. Qed.

(** C2 (amended): for every row the two formatted strings are exactly one
    of four pairs: the not-available sentinels when the resolved start value
    is falsy; the invalid sentinels when it is truthy and converts to no
    instant; the host's formatted date and time when it converts to one;
    and Error in date / Error in time when constructing the date throws,
    which only an array or an object can cause.  They are non-empty as long
    as the host's formatters return non-empty strings. *)
Theorem formatted_cases `{Host} (item : JsVal) (ev : DisplayEvent) :
  (forall t o, toLocaleDateString t o <> "") ->
  (forall t o, toLocaleTimeString t o <> "") ->
  displayEvent item = Ok ev ->
  let start := eventStartDateTimeString ev in
  (formattedDate ev <> "" /\ formattedTime ev <> "")
  /\ ((truthy start = false
       /\ formattedDate ev = "Date not available"
       /\ formattedTime ev = "Time not available")
      \/ (truthy start = true /\ Date_new start = Ok None
          /\ formattedDate ev = "Invalid Date"
          /\ formattedTime ev = "Invalid Time")
      \/ (exists t, truthy start = true /\ Date_new start = Ok (Some t)
                    /\ formattedDate ev = toLocaleDateString t dateOptions
                    /\ formattedTime ev = toLocaleTimeString t timeOptions)
      \/ (exists e, truthy start = true /\ Date_new start = Throw e
                    /\ ((exists elems, start = JArr elems)
                        \/ (exists props, start = JObj props))
                    /\ formattedDate ev = "Error in date"
                    /\ formattedTime ev = "Error in time")).
Proof.
  intros Hdate Htime Hev. pose proof (displayEvent_inv _ _ Hev) as Hitem.
  rewrite (displayEvent_ok item Hitem) in Hev. injection Hev as <-.
  cbn [eventStartDateTimeString formattedDate formattedTime].
  set (start := preferred (getOwn item "values") "Start" "c-xM1UXlWtET").
  unfold formatStart.
  destruct (truthy start) eqn:Htruthy.
  - destruct (Date_new start) as [[t|]|e] eqn:Hnew; cbn [fst snd].
    + split; [split; [apply Hdate | apply Htime]|].
      right; right; left. exists t. repeat split; reflexivity.
    + split; [split; discriminate|].
      right; left. repeat split; reflexivity.
    + split; [split; discriminate|].
      right; right; right. exists e.
      repeat split; try reflexivity. exact (Date_new_throws _ _ Hnew).
  - cbn [fst snd]. split; [split; discriminate|].
    left. repeat split; reflexivity.
Qed.

Lemma refHost_date_nonempty (t : Z) (o : DateTimeFormatOptions) :
  dateString t o <> "".
Proof.
  unfold dateString. destruct (civilFromDays (t / msPerDay)) as [[y m] d].
  destruct (isLong (month o)); apply append_cons_nonempty.
Qed.

Lemma refHost_time_nonempty (t : Z) (o : DateTimeFormatOptions) :
  timeString t o <> "".
Proof.
  unfold timeString. destruct (hour12 o) as [[|]|]; apply append_cons_nonempty.
Qed.

Lemma formatted_cases_witness :
  exists ev,
    displayEvent Samples.march = Ok ev
    /\ formattedDate ev <> "" /\ formattedTime ev <> "".
Proof.
  eexists. split; [reflexivity|].
  exact (proj1 (formatted_cases Samples.march _
                  refHost_date_nonempty refHost_time_nonempty eq_refl)).
Defined.

(** ** C9: the sign-up control *)

(** C9: the card of a rendered item has the Sign Up button, which opens the
    resolved link, exactly when the resolved sign-up link is truthy; when it
    is not, the same slot holds the placeholder text and the card content has
    no pressable element. *)
Theorem sign_up_control `{Host} (item : JsVal) (index : nat) (c : Element) :
  renderEventCard item index = Ok c ->
  exists ev,
    displayEvent item = Ok ev
    /\ (truthy (signUpLink ev) = true -> signUpSlot c = signUpButton (signUpLink ev))
    /\ (truthy (signUpLink ev) = false -> signUpSlot c = placeholder)
    /\ isSignUpButton (signUpSlot c) = truthy (signUpLink ev)
    /\ isPlaceholder (signUpSlot c) = negb (truthy (signUpLink ev))
    /\ existsb isPressable (cardContent c) = truthy (signUpLink ev).
Proof.
  unfold renderEventCard. intros Hcard.
  destruct (displayEvent item) as [ev|e] eqn:Hev; [|discriminate Hcard].
  cbn [bindR] in Hcard. injection Hcard as <-.
  exists ev. split; [reflexivity|].
  unfold signUpSlot, card, handleSignUp. cbn [cardContent nth].
  destruct (truthy (signUpLink ev)) eqn:Hlink.
  - repeat split; try reflexivity; try discriminate.
    cbn. destruct (truthy (eventDescription ev)); reflexivity.
  - repeat split; try reflexivity; try discriminate.
    cbn. destruct (truthy (eventDescription ev)); reflexivity.
Qed.

Lemma sign_up_control_witness :
  (exists c, renderEventCard Samples.withLink 0 = Ok c
             /\ isSignUpButton (signUpSlot c) = true)
  /\ (exists c, renderEventCard Samples.noStart 0 = Ok c
                /\ signUpSlot c = placeholder).
Proof.
  split.
  - eexists. split; [reflexivity|].
    destruct (sign_up_control Samples.withLink 0 _ eq_refl)
      as (ev & Hev & _ & _ & Hbutton & _).
    rewrite Hbutton. injection Hev as <-. reflexivity.
  - eexists. split; [reflexivity|].
    destruct (sign_up_control Samples.noStart 0 _ eq_refl)
      as (ev & Hev & _ & Hplace & _).
    apply Hplace. injection Hev as <-. reflexivity.
Defined.

(** ** C10: an empty string under the human-readable key *)

(** C10: presence is truthiness.  A row with the empty string under a
    human-readable key resolves that field like a row without the key; two
    rows that differ only in that one has the empty string under Start where
    the other has no Start key have the same display fields; with the empty
    string under Start and nothing truthy under the code key the strings are
    the not-available sentinels; and an empty string under a human-readable
    key with a non-empty string under the code key resolves to the latter. *)
Theorem empty_string_is_absent `{Host} (item : JsVal) (props : list (string * JsVal)) :
  getOwn item "values" = JObj props ->
  (forall human code item' props',
      lookup human props = JStr "" ->
      getOwn item' "values" = JObj props' ->
      hasOwn human props' = false ->
      lookup code props' = lookup code props ->
      resolveField item human code = resolveField item' human code)
  /\ (forall item' props',
        lookup "Start" props = JStr "" ->
        getOwn item' "values" = JObj props' ->
        hasOwn "Start" props' = false ->
        (forall k, k <> "Start" -> lookup k props' = lookup k props) ->
        displayEvent item = displayEvent item')
  /\ (lookup "Start" props = JStr "" ->
      truthy (lookup "c-xM1UXlWtET" props) = false ->
      formatted item = Some ("Date not available", "Time not available"))
  /\ (forall human code s,
        lookup human props = JStr "" ->
        lookup code props = JStr s ->
        s <> "" ->
        resolveField item human code = Ok (JStr s)).
Proof.
  intros Hvalues.
  assert (Hitem : nullish item = false).
  { apply (getOwn_defined_not_nullish _ _ _ Hvalues). discriminate. }
  split; [|split; [|split]].
  - intros human code item' props' Hempty Hvalues' Habsent Hcode.
    assert (Hitem' : nullish item' = false).
    { apply (getOwn_defined_not_nullish _ _ _ Hvalues'). discriminate. }
    rewrite (resolveField_ok _ _ _ Hitem), (resolveField_ok _ _ _ Hitem').
    rewrite Hvalues, Hvalues'. unfold preferred. cbn [optChain nullish getOwn].
    rewrite Hempty, (lookup_absent _ _ Habsent), Hcode. reflexivity.
  - intros item' props' Hstart Hvalues' Habsent Hsame.
    assert (Hitem' : nullish item' = false).
    { apply (getOwn_defined_not_nullish _ _ _ Hvalues'). discriminate. }
    rewrite (displayEvent_ok item Hitem), (displayEvent_ok item' Hitem').
    rewrite Hvalues, Hvalues'. unfold preferred. cbn [optChain nullish getOwn].
    rewrite Hstart, (lookup_absent _ _ Habsent). cbn [truthy String.eqb negb].
    rewrite !Hsame by discriminate. reflexivity.
  - intros Hstart Hcode. unfold formatted.
    rewrite (displayEvent_ok item Hitem). rewrite Hvalues.
    cbn [formattedDate formattedTime]. unfold preferred.
    cbn [optChain nullish getOwn]. rewrite Hstart. cbn [truthy String.eqb negb].
    now rewrite (formatStart_falsy _ Hcode).
  - intros human code s Hhuman Hcode Hs.
    rewrite (resolveField_ok _ _ _ Hitem), Hvalues. unfold preferred.
    cbn [optChain nullish getOwn]. rewrite Hhuman, Hcode. reflexivity.
Qed.

Lemma empty_string_is_absent_witness :
  displayEvent Samples.emptyStart = displayEvent Samples.noStart
  /\ formatted Samples.emptyStart = Some ("Date not available", "Time not available")
  /\ resolveField Samples.emptyDescription "Description" "c-CuhtPto9h7" = Ok (JStr "B").
Proof.
  pose proof (empty_string_is_absent Samples.emptyStart
                [("Start", JStr ""); ("Description", JStr "Canvass")] eq_refl)
    as (_ & Hsame & Hformat & _).
  pose proof (empty_string_is_absent Samples.emptyDescription
                [("Description", JStr ""); ("c-CuhtPto9h7", JStr "B")] eq_refl)
    as (_ & _ & _ & Hfallback).
  split; [|split].
  - apply (Hsame Samples.noStart [("Description", JStr "Canvass")]
             eq_refl eq_refl eq_refl).
    intros k Hk. cbn [lookup]. apply String.eqb_neq in Hk. now rewrite Hk.
  - apply Hformat; reflexivity.
  - exact (Hfallback "Description" "c-CuhtPto9h7" "B" eq_refl eq_refl
             ltac:(discriminate)).
Defined.

(** ** The fetch effect *)

Section Fetch_facts.
Context `{Host}.

Ltac run_fetch :=
  unfold mount, fetchData, tryCatchFinally, bindM, setData, setLoading,
    setError, liftR, axios_get, initialWorld;
  cbn [hooks sent data loading error truthy negb ToString bindR app].

(** Without a token nothing is sent. *)
Lemma mount_no_token (token : JsVal) (net : Request -> Result JsVal) :
  truthy token = false ->
  mount token net =
  (Ok tt,
   {| hooks := {| data := JNull; loading := false;
                  error := Some "API Token is not configured. Please set EXPO_PUBLIC_CODA_API_TOKEN in your .env file." |};
      sent := [] |}).
Proof.
  intros Htoken. run_fetch. rewrite Htoken. reflexivity.
Qed.

(** A fulfilled request stores the body of the response. *)
Lemma mount_fulfilled (tok : string) (net : Request -> Result JsVal) (response : JsVal) :
  tok <> "" ->
  net (apiRequest tok) = Ok response ->
  nullish response = false ->
  mount (JStr tok) net =
  (Ok tt,
   {| hooks := {| data := getOwn response "data"; loading := false; error := None |};
      sent := [apiRequest tok] |}).
Proof.
  intros Htok Hnet Hresponse. run_fetch.
  rewrite (eqb_empty_false _ Htok). cbn [negb].
  fold (apiRequest tok). rewrite Hnet.
  rewrite (getProp_ok _ _ Hresponse). reflexivity.
Qed.

(** A rejected request runs the catch clause on what it was rejected with. *)
Lemma mount_cancelled (tok : string) (net : Request -> Result JsVal) (e : JsVal) :
  tok <> "" ->
  net (apiRequest tok) = Throw e ->
  axios_isCancel e = true ->
  mount (JStr tok) net =
  (Throw (ReferenceError "requestTimeout is not defined"),
   {| hooks := {| data := JNull; loading := false; error := None |};
      sent := [apiRequest tok] |}).
Proof.
  intros Htok Hnet Hcancel. run_fetch.
  rewrite (eqb_empty_false _ Htok). cbn [negb].
  fold (apiRequest tok). rewrite Hnet, Hcancel. reflexivity.
Qed.

Lemma mount_server_error (tok : string) (net : Request -> Result JsVal)
      (e response : JsVal) (status : number) :
  tok <> "" ->
  net (apiRequest tok) = Throw e ->
  axios_isCancel e = false ->
  getOwn e "response" = response ->
  truthy response = true ->
  getOwn response "status" = JNum status ->
  mount (JStr tok) net =
  (Ok tt,
   {| hooks := {| data := JNull; loading := false;
                  error := Some ("Server error! Status: " ++ Number_toString status
                                 ++ ". Message: "
                                 ++ templateOfOption (JSON_stringify (getOwn response "data"))) |};
      sent := [apiRequest tok] |}).
Proof.
  intros Htok Hnet Hcancel Hresponse Htruthy Hstatus. run_fetch.
  rewrite (eqb_empty_false _ Htok). cbn [negb].
  fold (apiRequest tok). rewrite Hnet, Hcancel.
  assert (He : nullish e = false).
  { apply (getOwn_defined_not_nullish _ _ _ Hresponse).
    now apply truthy_not_undefined. }
  assert (Hr : nullish response = false).
  { destruct response; try reflexivity; discriminate Htruthy. }
  rewrite (getProp_ok _ _ He), Hresponse, Htruthy.
  rewrite !(getProp_ok _ _ Hr), Hstatus. reflexivity.
Qed.

Lemma mount_no_response (tok : string) (net : Request -> Result JsVal) (e : JsVal) :
  tok <> "" ->
  net (apiRequest tok) = Throw e ->
  axios_isCancel e = false ->
  truthy (getOwn e "response") = false ->
  truthy (getOwn e "request") = true ->
  mount (JStr tok) net =
  (Ok tt,
   {| hooks := {| data := JNull; loading := false;
                  error := Some "No response received from Coda Table API (axios)." |};
      sent := [apiRequest tok] |}).
Proof.
  intros Htok Hnet Hcancel Hresponse Hrequest. run_fetch.
  rewrite (eqb_empty_false _ Htok). cbn [negb].
  fold (apiRequest tok). rewrite Hnet, Hcancel.
  assert (He : nullish e = false).
  { apply (getOwn_defined_not_nullish e (getOwn e "request") "request" eq_refl).
    now apply truthy_not_undefined. }
  rewrite !(getProp_ok _ _ He), Hresponse, Hrequest. reflexivity.
Qed.

End Fetch_facts.

Section List_rows.
Context `{Host}.

Lemma mapi_length {A B} (f : A -> nat -> B) (l : list A) (i : nat) :
  length (mapi f l i) = length l.
Proof.
  revert i. induction l as [|x l IH]; intros i; simpl; [reflexivity|].
  now rewrite IH.
Qed.

Lemma mapi_nth_error {A B} (f : A -> nat -> B) (l : list A) (i k : nat) (x : A) :
  nth_error l k = Some x ->
  nth_error (mapi f l i) k = Some (f x (i + k)).
Proof.
  revert i k. induction l as [|y l IH]; intros i [|k]; simpl; try discriminate.
  - intros [= ->]. now rewrite Nat.add_0_r.
  - intros Hk. rewrite (IH (S i) k Hk). f_equal. f_equal. lia.
Qed.

Lemma renderEventCard_ok (item : JsVal) (index : nat) :
  nullish item = false ->
  exists ev, displayEvent item = Ok ev /\ renderEventCard item index = Ok (card ev).
Proof.
  intros Hitem. unfold renderEventCard.
  rewrite (displayEvent_ok item Hitem). eexists. split; reflexivity.
Qed.

Lemma hasItems_array (body : JsVal) (items : list JsVal) :
  getOwn body "items" = JArr items ->
  hasItems body = Ok (negb (Nat.eqb (length items) 0)).
Proof.
  intros Hitems. unfold hasItems.
  destruct body; simpl in Hitems; try discriminate Hitems.
  cbn [truthy getProp nullish bindR getOwn]. rewrite Hitems. reflexivity.
Qed.

End List_rows.

(** ** C1: a missing token *)

(** C1: when the token is absent at activation, the fetch ends in the error
    state with a message that contains API Token is not configured, the
    screen shows that message, and no request has been sent. *)
Theorem missing_token_error `{Host} (net : Request -> Result JsVal) :
  exists msg,
    mount JUndefined net
    = (Ok tt, {| hooks := {| data := JNull; loading := false; error := Some msg |};
                 sent := [] |})
    /\ Substring "API Token is not configured" msg
    /\ HomeScreen (hooks (snd (mount JUndefined net))) = Ok (errorScreen msg).
Proof.
  eexists. rewrite (mount_no_token JUndefined net eq_refl).
  split; [reflexivity|]. split.
  - exists "", ". Please set EXPO_PUBLIC_CODA_API_TOKEN in your .env file.".
    reflexivity.
  - reflexivity.
Qed.

(** ** C3: timeout and cancellation *)

(** C3 (what the code does): when the request is rejected with a
    cancellation, the catch clause throws a ReferenceError while building
    its message, so no error message is set; loading ends, and the screen
    shows the empty-list text. *)
Theorem cancellation_sets_no_error `{Host} (tok : string)
        (net : Request -> Result JsVal) (e : JsVal) :
  tok <> "" ->
  net (apiRequest tok) = Throw e ->
  axios_isCancel e = true ->
  mount (JStr tok) net
  = (Throw (ReferenceError "requestTimeout is not defined"),
     {| hooks := {| data := JNull; loading := false; error := None |};
        sent := [apiRequest tok] |})
  /\ HomeScreen (hooks (snd (mount (JStr tok) net))) = Ok emptyScreen.
Proof.
  intros Htok Hnet Hcancel.
  rewrite (mount_cancelled tok net e Htok Hnet Hcancel).
  split; reflexivity.
Qed.

Lemma cancellation_sets_no_error_witness :
  error (hooks (snd (mount (JStr "secret") (fun _ => Throw Samples.cancelError)))) = None.
Proof.
  destruct (cancellation_sets_no_error "secret" (fun _ => Throw Samples.cancelError)
              Samples.cancelError ltac:(discriminate) eq_refl eq_refl) as [Hmount _].
  rewrite Hmount. reflexivity.
Defined.

(** The rejection axios produces when its own timeout fires carries no
    cancellation mark: it is reported as a missing response. *)
Example timeout_reported_as_no_response :
  error (hooks (snd (mount (JStr "secret") (fun _ => Throw Samples.timeoutError))))
  = Some "No response received from Coda Table API (axios).".
Proof. reflexivity. Qed.

(** ** C6: a response with an error status *)

(** C6: when the request is rejected with a response, the fetch ends in the
    error state, and the message contains the status code and the
    serialized body of the response. *)
Theorem server_error_reported `{Host} (tok : string) (net : Request -> Result JsVal)
        (e response body : JsVal) (status : number) :
  tok <> "" ->
  net (apiRequest tok) = Throw e ->
  axios_isCancel e = false ->
  getOwn e "response" = response ->
  truthy response = true ->
  getOwn response "status" = JNum status ->
  getOwn response "data" = body ->
  exists msg,
    mount (JStr tok) net
    = (Ok tt, {| hooks := {| data := JNull; loading := false; error := Some msg |};
                 sent := [apiRequest tok] |})
    /\ Substring (Number_toString status) msg
    /\ Substring (templateOfOption (JSON_stringify body)) msg
    /\ HomeScreen (hooks (snd (mount (JStr tok) net))) = Ok (errorScreen msg).
Proof.
  intros Htok Hnet Hcancel Hresponse Htruthy Hstatus Hbody.
  eexists.
  rewrite (mount_server_error tok net e response status
             Htok Hnet Hcancel Hresponse Htruthy Hstatus), Hbody.
  split; [reflexivity|]. split; [|split].
  - apply Substring_middle.
  - rewrite <- !append_assoc. apply Substring_end.
  - reflexivity.
Qed.

Lemma server_error_reported_witness :
  exists msg,
    error (hooks (snd (mount (JStr "secret") (fun _ => Throw Samples.serverError))))
    = Some msg
    /\ msg = "Server error! Status: 500. Message: {" ++ dquote ++ "msg" ++ dquote
              ++ ":" ++ dquote ++ "fail" ++ dquote ++ "}"
    /\ Substring "500" msg
    /\ Substring ("{" ++ dquote ++ "msg" ++ dquote ++ ":" ++ dquote ++ "fail"
                  ++ dquote ++ "}") msg.
Proof.
  destruct (server_error_reported "secret" (fun _ => Throw Samples.serverError)
              Samples.serverError Samples.failResponse
              Samples.failBody Samples.status500
              ltac:(discriminate) eq_refl eq_refl eq_refl eq_refl eq_refl eq_refl)
    as (msg & Hmount & Hstatus & Hbody & _).
  exists msg. rewrite Hmount. split; [reflexivity|].
  split; [|split; [exact Hstatus | exact Hbody]].
  cbn in Hmount. injection Hmount as <-. reflexivity.
Defined.

(** ** C7 and C8: the loaded screen *)

Section Loaded.
Context `{Host}.

Lemma mount_success (tok : string) (net : Request -> Result JsVal)
      (response body items : JsVal) :
  tok <> "" ->
  net (apiRequest tok) = Ok response ->
  getOwn response "data" = body ->
  getOwn body "items" = items ->
  items <> JUndefined ->
  mount (JStr tok) net
  = (Ok tt, {| hooks := {| data := body; loading := false; error := None |};
               sent := [apiRequest tok] |}).
Proof.
  intros Htok Hnet Hbody Hitems Hdefined.
  assert (Hb : body <> JUndefined).
  { intros ->. apply Hdefined. now rewrite <- Hitems. }
  rewrite (mount_fulfilled tok net response Htok Hnet
             (getOwn_defined_not_nullish _ _ _ Hbody Hb)).
  now rewrite Hbody.
Qed.

End Loaded.

(** C7: when the request is fulfilled with a body whose items array is
    empty, the screen is the header followed by the text No events found.,
    and no list row is rendered. *)
Theorem empty_items_screen `{Host} (tok : string) (net : Request -> Result JsVal)
        (response body : JsVal) :
  tok <> "" ->
  net (apiRequest tok) = Ok response ->
  getOwn response "data" = body ->
  getOwn body "items" = JArr [] ->
  exists screen,
    HomeScreen (hooks (snd (mount (JStr tok) net))) = Ok screen
    /\ screen = emptyScreen
    /\ screenTexts screen = [[JStr "No events found."]]
    /\ listRows screen = [].
Proof.
  intros Htok Hnet Hbody Hitems.
  rewrite (mount_success tok net response body (JArr []) Htok Hnet Hbody Hitems)
    by discriminate.
  exists emptyScreen. unfold HomeScreen. cbn [snd hooks loading error errorShown data].
  rewrite (hasItems_array body [] Hitems). repeat split; reflexivity.
Qed.

Lemma empty_items_screen_witness :
  HomeScreen (hooks (snd (mount (JStr "secret") (fun _ => Ok (Samples.success [])))))
  = Ok emptyScreen.
Proof.
  destruct (empty_items_screen "secret" (fun _ => Ok (Samples.success []))
              (Samples.success []) (JObj [("items", JArr [])])
              ltac:(discriminate) eq_refl eq_refl eq_refl)
    as (screen & Hscreen & -> & _).
  exact Hscreen.
Defined.

(** C8: when the request is fulfilled with a non-empty items array, the
    screen hands that array, unchanged, to the list, whose rows are the
    cards of the items: one row per item, the row at each index rendered
    from the item at that index. *)
Theorem items_rendered_in_order `{Host} (tok : string) (net : Request -> Result JsVal)
        (response body : JsVal) (items : list JsVal) :
  tok <> "" ->
  net (apiRequest tok) = Ok response ->
  getOwn response "data" = body ->
  getOwn body "items" = JArr items ->
  items <> [] ->
  exists screen,
    HomeScreen (hooks (snd (mount (JStr tok) net))) = Ok screen
    /\ screen = listScreen (JArr items)
    /\ listRows screen = mapi renderEventCard items 0
    /\ length (listRows screen) = length items
    /\ (forall k item,
          nth_error items k = Some item ->
          nth_error (listRows screen) k = Some (renderEventCard item k))
    /\ (forall k item,
          nth_error items k = Some item ->
          nullish item = false ->
          exists ev, displayEvent item = Ok ev
                     /\ nth_error (listRows screen) k = Some (Ok (card ev))).
Proof.
  intros Htok Hnet Hbody Hitems Hnonempty.
  rewrite (mount_success tok net response body (JArr items) Htok Hnet Hbody Hitems)
    by discriminate.
  exists (listScreen (JArr items)).
  assert (Hrows : listRows (listScreen (JArr items)) = mapi renderEventCard items 0).
  { unfold listRows, listScreen. cbn [flat_map flatListRows header app].
    apply app_nil_r. }
  split; [|split; [reflexivity|split; [exact Hrows|]]].
  - unfold HomeScreen. cbn [snd hooks loading error errorShown data].
    rewrite (hasItems_array body items Hitems), Hitems.
    destruct items as [|x rest]; [contradiction|]. reflexivity.
  - rewrite Hrows. split; [apply mapi_length|]. split.
    + intros k item Hk. now rewrite (mapi_nth_error _ _ 0 k item Hk).
    + intros k item Hk Hitem.
      destruct (renderEventCard_ok item k Hitem) as (ev & Hev & Hcard).
      exists ev. split; [exact Hev|].
      now rewrite (mapi_nth_error _ _ 0 k item Hk), <- Hcard.
Qed.

Lemma items_rendered_in_order_witness :
  exists screen,
    HomeScreen (hooks (snd (mount (JStr "secret")
                              (fun _ => Ok (Samples.success
                                              [Samples.unparseable; Samples.march])))))
    = Ok screen
    /\ length (listRows screen) = 2%nat
    /\ nth_error (listRows screen) 1 = Some (renderEventCard Samples.march 1).
Proof.
  destruct (items_rendered_in_order "secret"
              (fun _ => Ok (Samples.success [Samples.unparseable; Samples.march]))
              (Samples.success [Samples.unparseable; Samples.march])
              (JObj [("items", JArr [Samples.unparseable; Samples.march])])
              [Samples.unparseable; Samples.march]
              ltac:(discriminate) eq_refl eq_refl eq_refl ltac:(discriminate))
    as (screen & Hscreen & _ & _ & Hlen & Hnth & _).
  exists screen. split; [exact Hscreen|]. split; [exact Hlen|].
  exact (Hnth 1%nat Samples.march eq_refl).
Defined.

(** * Further properties of the fetch effect *)

Section Settled.
Context `{Host}.

Ltac open_fetch :=
  unfold mount, fetchData, tryCatchFinally, bindM, setData, setLoading,
    setError, liftR, axios_get, initialWorld, getProp.

Ltac run_paths :=
  cbn [hooks sent data loading error negb bindR app fst snd];
  repeat (match goal with
          | |- context [match ?x with _ => _ end] =>
              lazymatch x with
              | context [match _ with _ => _ end] => fail
              | _ => destruct x eqn:?
              end
          end;
          cbn [hooks sent data loading error negb bindR app fst snd]).

(** Every path through [fetchData]: where the cells and the log end. *)
Lemma mount_summary (token : JsVal) (net : Request -> Result JsVal) :
  loading (hooks (snd (mount token net))) = false
  /\ ((truthy token = false /\ sent (snd (mount token net)) = [])
      \/ (exists thrown, truthy token = true /\ ToString token = Throw thrown
                         /\ sent (snd (mount token net)) = [])
      \/ (exists bearer, truthy token = true /\ ToString token = Ok bearer
                         /\ sent (snd (mount token net)) = [apiRequest bearer]))
  /\ (error (hooks (snd (mount token net))) = None
      \/ exists msg, error (hooks (snd (mount token net))) = Some msg
                     /\ msg <> "" /\ data (hooks (snd (mount token net))) = JNull).
Proof.
  open_fetch. destruct (truthy token) eqn:Htoken; run_paths.
  all: split; [reflexivity|].
  all: split;
    [ first [ left; split; reflexivity
            | right; left; eexists; repeat split; reflexivity
            | right; right; eexists; repeat split; reflexivity ]
    | first [ left; reflexivity
            | right; eexists; split; [reflexivity|]; split;
              [discriminate | reflexivity] ] ].
Qed.

Lemma errorShown_nonempty (msg : string) :
  msg <> "" -> errorShown (Some msg) = Some msg.
Proof. intros Hmsg. unfold errorShown. now rewrite (eqb_empty_false _ Hmsg). Qed.

Lemma hasItems_falsy_items (body : JsVal) :
  truthy (getOwn body "items") = false -> hasItems body = Ok false.
Proof.
  intros Hitems. unfold hasItems. destruct (truthy body) eqn:Hbody; [|reflexivity].
  assert (Hb : nullish body = false).
  { destruct body; try reflexivity; discriminate Hbody. }
  rewrite (getProp_ok _ _ Hb). cbn [bindR]. now rewrite Hitems.
Qed.

End Settled.

(** X1: whatever the token and whatever the network answers, the fetch ends
    with loading switched off, and the screen rendered from the cells it
    leaves is never the loading screen. *)
Theorem fetch_ends_loading `{Host} (token : JsVal) (net : Request -> Result JsVal) :
  loading (hooks (snd (mount token net))) = false
  /\ HomeScreen (hooks (snd (mount token net))) <> Ok loadingScreen.
Proof.
  destruct (mount_summary token net) as (Hloading & _ & _).
  split; [exact Hloading|].
  unfold HomeScreen. rewrite Hloading.
  destruct (errorShown _) as [msg|]; [discriminate|].
  destruct (hasItems _) as [[|]|e]; discriminate.
Qed.

(** X2: one activation sends at most one request and never retries: with a
    non-empty token string exactly one request leaves, to the fixed URL with
    the bearer header, the JSON accept header and the 30000 ms timeout,
    whether the promise is fulfilled or rejected; with a falsy token none. *)
Theorem one_request_per_activation `{Host} (token : JsVal)
        (net : Request -> Result JsVal) :
  (length (sent (snd (mount token net))) <= 1)%nat
  /\ (truthy token = false -> sent (snd (mount token net)) = [])
  /\ (forall tok, token = JStr tok -> tok <> "" ->
                  sent (snd (mount token net)) = [apiRequest tok]).
Proof.
  destruct (mount_summary token net)
    as (_ & [[Hfalsy Hsent] | [(thrown & Htruthy & Hthrow & Hsent)
                              | (bearer & Htruthy & Hbearer & Hsent)]] & _).
  - rewrite Hsent. split; [cbn; lia|]. split; [reflexivity|].
    intros tok -> Htok. cbn in Hfalsy. rewrite (eqb_empty_false _ Htok) in Hfalsy.
    discriminate Hfalsy.
  - rewrite Hsent. split; [cbn; lia|]. split; [reflexivity|].
    intros tok -> _. discriminate Hthrow.
  - rewrite Hsent. split; [cbn; lia|]. split; [congruence|].
    intros tok -> _. cbn in Hbearer. injection Hbearer as <-. reflexivity.
Qed.

Lemma one_request_per_activation_witness :
  sent (snd (mount (JStr "secret") (fun _ => Throw Samples.serverError)))
  = [apiRequest "secret"]
  /\ sent (snd (mount (JStr "") (fun _ => Throw Samples.serverError))) = [].
Proof.
  split.
  - apply (proj2 (proj2 (one_request_per_activation (JStr "secret")
                           (fun _ => Throw Samples.serverError))) "secret" eq_refl).
    discriminate.
  - apply (proj1 (proj2 (one_request_per_activation (JStr "")
                           (fun _ => Throw Samples.serverError)))).
    reflexivity.
Defined.

(** X3: whenever the fetch leaves an error message, the message is not
    empty, no data has been stored, and the screen is the error screen with
    that message; so data and an error message are never both present. *)
Theorem error_is_shown_without_data `{Host} (token : JsVal)
        (net : Request -> Result JsVal) (msg : string) :
  error (hooks (snd (mount token net))) = Some msg ->
  msg <> ""
  /\ data (hooks (snd (mount token net))) = JNull
  /\ HomeScreen (hooks (snd (mount token net))) = Ok (errorScreen msg).
Proof.
  intros Herror.
  destruct (mount_summary token net) as (Hloading & _ & [Hnone | (m & Hm & Hne & Hdata)]).
  - congruence.
  - assert (m = msg) as -> by congruence.
    split; [exact Hne|]. split; [exact Hdata|].
    unfold HomeScreen. rewrite Hloading, Hm, (errorShown_nonempty _ Hne). reflexivity.
Qed.

Lemma error_is_shown_without_data_witness :
  HomeScreen (hooks (snd (mount (JStr "secret") (fun _ => Throw Samples.timeoutError))))
  = Ok (errorScreen "No response received from Coda Table API (axios).").
Proof.
  exact (proj2 (proj2 (error_is_shown_without_data (JStr "secret")
                         (fun _ => Throw Samples.timeoutError)
                         "No response received from Coda Table API (axios)."
                         eq_refl))).
Defined.

(** X4: an empty or otherwise falsy token is treated like a missing one:
    the configuration message is set, nothing is sent, and the error screen
    shows the message. *)
Theorem falsy_token_is_missing `{Host} (token : JsVal)
        (net : Request -> Result JsVal) :
  truthy token = false ->
  exists msg,
    mount token net
    = (Ok tt, {| hooks := {| data := JNull; loading := false; error := Some msg |};
                 sent := [] |})
    /\ Substring "API Token is not configured" msg
    /\ HomeScreen (hooks (snd (mount token net))) = Ok (errorScreen msg).
Proof.
  intros Htoken. eexists. rewrite (mount_no_token token net Htoken).
  split; [reflexivity|]. split; [|reflexivity].
  exists "", ". Please set EXPO_PUBLIC_CODA_API_TOKEN in your .env file.".
  reflexivity.
Qed.

Lemma falsy_token_is_missing_witness :
  sent (snd (mount (JStr "") (fun _ => Ok (Samples.success [])))) = []
  /\ error (hooks (snd (mount (JStr "") (fun _ => Ok (Samples.success [])))))
     = Some "API Token is not configured. Please set EXPO_PUBLIC_CODA_API_TOKEN in your .env file.".
Proof.
  destruct (falsy_token_is_missing (JStr "") (fun _ => Ok (Samples.success [])) eq_refl)
    as (msg & Hmount & _).
  rewrite Hmount. cbn in Hmount. injection Hmount as <-. split; reflexivity.
Defined.

(** X5: a rejection that is no cancellation and carries a request but no
    response is reported with the fixed no-response message. *)
Theorem no_response_reported `{Host} (tok : string) (net : Request -> Result JsVal)
        (e : JsVal) :
  tok <> "" ->
  net (apiRequest tok) = Throw e ->
  axios_isCancel e = false ->
  truthy (getOwn e "response") = false ->
  truthy (getOwn e "request") = true ->
  mount (JStr tok) net
  = (Ok tt,
     {| hooks := {| data := JNull; loading := false;
                    error := Some "No response received from Coda Table API (axios)." |};
        sent := [apiRequest tok] |})
  /\ HomeScreen (hooks (snd (mount (JStr tok) net)))
     = Ok (errorScreen "No response received from Coda Table API (axios).").
Proof.
  intros Htok Hnet Hcancel Hresponse Hrequest.
  rewrite (mount_no_response tok net e Htok Hnet Hcancel Hresponse Hrequest).
  split; reflexivity.
Qed.

Lemma no_response_reported_witness :
  error (hooks (snd (mount (JStr "secret") (fun _ => Throw Samples.timeoutError))))
  = Some "No response received from Coda Table API (axios).".
Proof.
  rewrite (proj1 (no_response_reported "secret" (fun _ => Throw Samples.timeoutError)
                    Samples.timeoutError ltac:(discriminate)
                    eq_refl eq_refl eq_refl eq_refl)).
  reflexivity.
Defined.

(** X6: a rejection that is no cancellation and carries neither a response
    nor a request is reported as Error: followed by its message. *)
Theorem other_failure_reported `{Host} (tok : string) (net : Request -> Result JsVal)
        (e : JsVal) (text : string) :
  tok <> "" ->
  net (apiRequest tok) = Throw e ->
  nullish e = false ->
  axios_isCancel e = false ->
  truthy (getOwn e "response") = false ->
  truthy (getOwn e "request") = false ->
  ToString (getOwn e "message") = Ok text ->
  mount (JStr tok) net
  = (Ok tt,
     {| hooks := {| data := JNull; loading := false;
                    error := Some ("Error: " ++ text) |};
        sent := [apiRequest tok] |})
  /\ HomeScreen (hooks (snd (mount (JStr tok) net)))
     = Ok (errorScreen ("Error: " ++ text)).
Proof.
  intros Htok Hnet He Hcancel Hresponse Hrequest Htext.
  assert (Hmount : mount (JStr tok) net
                   = (Ok tt,
                      {| hooks := {| data := JNull; loading := false;
                                     error := Some ("Error: " ++ text) |};
                         sent := [apiRequest tok] |})).
  { unfold mount, fetchData, tryCatchFinally, bindM, setData, setLoading,
      setError, liftR, axios_get, initialWorld.
    cbn [hooks sent data loading error truthy negb ToString bindR app].
    rewrite (eqb_empty_false _ Htok). cbn [negb].
    fold (apiRequest tok). rewrite Hnet, Hcancel.
    rewrite !(getProp_ok _ _ He), Hresponse, Hrequest, Htext. reflexivity. }
  rewrite Hmount. split; reflexivity.
Qed.

Lemma other_failure_reported_witness :
  error (hooks (snd (mount (JStr "secret") (fun _ => Throw MoreSamples.setupError))))
  = Some "Error: Network Error".
Proof.
  rewrite (proj1 (other_failure_reported "secret"
                    (fun _ => Throw MoreSamples.setupError)
                    MoreSamples.setupError "Network Error" ltac:(discriminate)
                    eq_refl eq_refl eq_refl eq_refl eq_refl eq_refl)).
  reflexivity.
Defined.

(** X7: when the request is fulfilled, the body of the response is stored
    as it is and no error is set; and when that body has no truthy items
    member (it is a string, lacks the member, or holds null there), the
    screen shows No events found. and no list. *)
Theorem body_without_items_is_empty `{Host} (tok : string)
        (net : Request -> Result JsVal) (response : JsVal) :
  tok <> "" ->
  net (apiRequest tok) = Ok response ->
  nullish response = false ->
  truthy (getOwn (getOwn response "data") "items") = false ->
  hooks (snd (mount (JStr tok) net))
  = {| data := getOwn response "data"; loading := false; error := None |}
  /\ HomeScreen (hooks (snd (mount (JStr tok) net))) = Ok emptyScreen
  /\ listRows emptyScreen = [].
Proof.
  intros Htok Hnet Hresponse Hitems.
  rewrite (mount_fulfilled tok net response Htok Hnet Hresponse).
  split; [reflexivity|]. split; [|reflexivity].
  unfold HomeScreen. cbn [snd hooks loading error errorShown data].
  now rewrite (hasItems_falsy_items _ Hitems).
Qed.

Lemma body_without_items_is_empty_witness :
  HomeScreen (hooks (snd (mount (JStr "secret") (fun _ => Ok MoreSamples.htmlResponse))))
  = Ok emptyScreen.
Proof.
  exact (proj1 (proj2 (body_without_items_is_empty "secret"
                         (fun _ => Ok MoreSamples.htmlResponse)
                         MoreSamples.htmlResponse ltac:(discriminate)
                         eq_refl eq_refl eq_refl))).
Defined.

(** * Further properties of rows, cards and keys *)

Section Card_facts.
Context `{Host}.

Lemma optChain_non_object (v : JsVal) (k : string) :
  (forall props, v <> JObj props) -> optChain v k = JUndefined.
Proof.
  intros Hv. destruct v; try reflexivity. now destruct (Hv props).
Qed.

Lemma preferred_non_object (v : JsVal) (human code : string) :
  (forall props, v <> JObj props) -> preferred v human code = JUndefined.
Proof.
  intros Hv. unfold preferred. now rewrite !(optChain_non_object _ _ Hv).
Qed.

Lemma keyExtractor_ok (item random : JsVal) :
  nullish item = false ->
  keyExtractor item random
  = Ok (if truthy (getOwn item "id") then getOwn item "id"
        else if truthy (getOwn item "href") then getOwn item "href"
             else random).
Proof.
  intros Hitem. unfold keyExtractor, js_or.
  rewrite !(getProp_ok _ _ Hitem). cbn [bindR].
  destruct (truthy (getOwn item "id")); [reflexivity|].
  destruct (truthy (getOwn item "href")); reflexivity.
Qed.

End Card_facts.

(** X8: for an item that is neither null nor undefined and a truthy random
    fallback, the key of a row is always truthy: it is the id when that is
    truthy, else the href when that is truthy, else the fallback; so the
    key does not depend on the random fallback once the item has a truthy
    id or href. *)
Theorem keyExtractor_key `{Host} (item random : JsVal) :
  nullish item = false ->
  truthy random = true ->
  exists key,
    keyExtractor item random = Ok key
    /\ truthy key = true
    /\ (truthy (getOwn item "id") = true -> key = getOwn item "id")
    /\ (truthy (getOwn item "id") = false -> truthy (getOwn item "href") = true ->
        key = getOwn item "href")
    /\ (truthy (getOwn item "id") = false -> truthy (getOwn item "href") = false ->
        key = random)
    /\ (truthy (getOwn item "id") || truthy (getOwn item "href") = true ->
        forall random', keyExtractor item random' = Ok key).
Proof.
  intros Hitem Hrandom. eexists. split; [apply (keyExtractor_ok _ _ Hitem)|].
  destruct (truthy (getOwn item "id")) eqn:Hid;
    [|destruct (truthy (getOwn item "href")) eqn:Hhref].
  - repeat split; try easy.
    intros _ random'. rewrite (keyExtractor_ok _ _ Hitem), Hid. reflexivity.
  - repeat split; try easy.
    intros _ random'. rewrite (keyExtractor_ok _ _ Hitem), Hid, Hhref. reflexivity.
  - repeat split; try easy.
Qed.

Lemma keyExtractor_key_witness :
  keyExtractor MoreSamples.hrefOnly (JStr "0.4221") = Ok (JStr "/rows/i-8")
  /\ keyExtractor MoreSamples.hrefOnly (JStr "0.9070") = Ok (JStr "/rows/i-8").
Proof.
  destruct (keyExtractor_key MoreSamples.hrefOnly (JStr "0.4221") eq_refl eq_refl)
    as (key & Hkey & _ & _ & Hhref & _ & Hstable).
  rewrite (Hhref eq_refl eq_refl) in Hkey, Hstable.
  split; [exact Hkey | exact (Hstable eq_refl (JStr "0.9070"))].
Defined.

(** X9: rendering a row and extracting its key complete exactly for the
    items that are neither null nor undefined; on null and undefined both
    throw. *)
Theorem row_defined_iff_item_present `{Host} (item random : JsVal) (index : nat) :
  ((exists c, renderEventCard item index = Ok c) <-> nullish item = false)
  /\ ((exists key, keyExtractor item random = Ok key) <-> nullish item = false)
  /\ (nullish item = true ->
      (exists e, renderEventCard item index = Throw e)
      /\ (exists e, keyExtractor item random = Throw e)).
Proof.
  split; [|split].
  - split.
    + intros [c Hc]. unfold renderEventCard in Hc.
      destruct (displayEvent item) as [ev|e] eqn:Hev; [|discriminate Hc].
      exact (displayEvent_inv _ _ Hev).
    + intros Hitem. destruct (renderEventCard_ok item index Hitem) as (ev & _ & Hc).
      eauto.
  - split.
    + intros [key Hkey]. destruct (nullish item) eqn:Hitem; [|reflexivity].
      unfold keyExtractor, js_or, getProp in Hkey. rewrite Hitem in Hkey.
      discriminate Hkey.
    + intros Hitem. rewrite (keyExtractor_ok _ _ Hitem). eauto.
  - intros Hitem. split.
    + destruct (displayEvent_throws item Hitem) as [e He].
      exists e. unfold renderEventCard. now rewrite He.
    + unfold keyExtractor, js_or, getProp. rewrite Hitem. eexists. reflexivity.
Qed.

Lemma row_defined_iff_item_present_witness :
  (exists e, renderEventCard JNull 0 = Throw e)
  /\ exists c, renderEventCard MoreSamples.bareRow 0 = Ok c.
Proof.
  destruct (row_defined_iff_item_present JNull (JStr "0.5") 0) as (_ & _ & Hnull).
  destruct (row_defined_iff_item_present MoreSamples.bareRow (JStr "0.5") 0)
    as ([_ Hrow] & _).
  split; [exact (proj1 (Hnull eq_refl)) | exact (Hrow eq_refl)].
Defined.

(** X10: an item without a values mapping (no such member, null there, or
    a string or number) still renders: no field resolves, the strings are the
    not-available sentinels, and the card has no image, no description and
    the placeholder instead of the button. *)
Theorem row_without_values `{Host} (item : JsVal) (index : nat) :
  nullish item = false ->
  (forall props, getOwn item "values" <> JObj props) ->
  displayEvent item = Ok blankEvent
  /\ renderEventCard item index = Ok (card blankEvent)
  /\ imageSlot (card blankEvent) = Null
  /\ descriptionSlot (card blankEvent) = Null
  /\ signUpSlot (card blankEvent) = placeholder.
Proof.
  intros Hitem Hvalues.
  assert (Hev : displayEvent item = Ok blankEvent).
  { rewrite (displayEvent_ok item Hitem).
    rewrite !(preferred_non_object _ _ _ Hvalues). reflexivity. }
  split; [exact Hev|]. split.
  - unfold renderEventCard. now rewrite Hev.
  - repeat split; reflexivity.
Qed.

Lemma row_without_values_witness :
  renderEventCard MoreSamples.nullValues 0 = Ok (card blankEvent)
  /\ renderEventCard MoreSamples.bareRow 3 = Ok (card blankEvent).
Proof.
  split.
  - apply (row_without_values MoreSamples.nullValues 0 eq_refl). discriminate.
  - apply (row_without_values MoreSamples.bareRow 3 eq_refl). discriminate.
Defined.

(** X11: the card of a rendered item always has the date line and the time
    line, carrying the two formatted strings; it has an image, whose source
    is the resolved graphic URL, exactly when that URL is truthy, and a
    description text exactly when the resolved description is truthy. *)
Theorem card_optional_parts `{Host} (item : JsVal) (index : nat) (c : Element) :
  renderEventCard item index = Ok c ->
  exists ev,
    displayEvent item = Ok ev
    /\ dateLine c
       = View "dateTimeContainer"
           [ MaterialCommunityIcons "calendar-month-outline";
             ThemedText "default" "cardText" [JStr "Date: "; JStr (formattedDate ev)] ]
    /\ timeLine c
       = View "dateTimeContainer"
           [ MaterialCommunityIcons "clock-time-four-outline";
             ThemedText "default" "cardText" [JStr "Time: "; JStr (formattedTime ev)] ]
    /\ (truthy (graphicUrl ev) = true ->
        imageSlot c = Image (uri (graphicUrl ev)) "cardImage")
    /\ isNull (imageSlot c) = negb (truthy (graphicUrl ev))
    /\ (truthy (eventDescription ev) = true ->
        descriptionSlot c = ThemedText "default" "cardText" [eventDescription ev])
    /\ isNull (descriptionSlot c) = negb (truthy (eventDescription ev)).
Proof.
  unfold renderEventCard. intros Hcard.
  destruct (displayEvent item) as [ev|e] eqn:Hev; [|discriminate Hcard].
  cbn [bindR] in Hcard. injection Hcard as <-.
  exists ev. split; [reflexivity|].
  unfold dateLine, timeLine, descriptionSlot, imageSlot, card.
  cbn [cardContent nth].
  destruct (truthy (graphicUrl ev)), (truthy (eventDescription ev));
    repeat split; try reflexivity; discriminate.
Qed.

Lemma card_optional_parts_witness :
  exists c,
    renderEventCard MoreSamples.pictured 0 = Ok c
    /\ imageSlot c = Image (uri (JStr "https://example.org/a.png")) "cardImage"
    /\ descriptionSlot c = ThemedText "default" "cardText" [JStr "Canvass"].
Proof.
  eexists. split; [reflexivity|].
  destruct (card_optional_parts MoreSamples.pictured 0 _ eq_refl)
    as (ev & Hev & _ & _ & Himage & _ & Hdescription & _).
  injection Hev as <-.
  split; [exact (Himage eq_refl) | exact (Hdescription eq_refl)].
Defined.

(** X12: a row whose resolved start value is a non-empty string that parses
    to an instant gets that instant formatted with the long-date options
    (numeric year, long month, numeric day) and the 12-hour time options
    (numeric hour, two-digit minute). *)
Theorem valid_start_formatted `{Host} (item : JsVal) (ev : DisplayEvent)
        (s : string) (t : Z) :
  displayEvent item = Ok ev ->
  eventStartDateTimeString ev = JStr s ->
  s <> "" ->
  Date_parse s = Some t ->
  formattedDate ev
  = toLocaleDateString t {| year := Some "numeric"; month := Some "long";
                            day := Some "numeric";
                            hour := None; minute := None; hour12 := None |}
  /\ formattedTime ev
     = toLocaleTimeString t {| year := None; month := None; day := None;
                               hour := Some "numeric"; minute := Some "2-digit";
                               hour12 := Some true |}.
Proof.
  intros Hev Hs Hne Hparse. pose proof (displayEvent_inv _ _ Hev) as Hitem.
  rewrite (displayEvent_ok item Hitem) in Hev. injection Hev as <-.
  cbn [eventStartDateTimeString formattedDate formattedTime] in *.
  rewrite Hs. unfold formatStart. cbn [truthy].
  rewrite (eqb_empty_false _ Hne). cbn [negb].
  rewrite Date_new_string, Hparse. split; reflexivity.
Qed.

Lemma valid_start_formatted_witness :
  exists ev,
    displayEvent Samples.march = Ok ev
    /\ formattedDate ev = "March 1, 2025"
    /\ formattedTime ev = "6:30 PM".
Proof.
  eexists. split; [reflexivity|].
  exact (valid_start_formatted Samples.march _ "2025-03-01T18:30:00Z"
           1740853800000 eq_refl eq_refl ltac:(discriminate) eq_refl).
Defined.

(** X13: every pressable element in the content of a rendered card is the
    Sign Up button, and pressing it opens the resolved, truthy link; the
    warning branch of handleSignUp is never attached to a rendered button. *)
Theorem pressable_opens_resolved_link `{Host} (item : JsVal) (index : nat)
        (c el : Element) :
  renderEventCard item index = Ok c ->
  In el (cardContent c) ->
  isPressable el = true ->
  exists ev,
    displayEvent item = Ok ev
    /\ truthy (signUpLink ev) = true
    /\ el = Pressable "signUpButton" (Linking_openURL (signUpLink ev))
              [ThemedText "default" "signUpButtonText" [JStr "Sign Up"]]
    /\ handleSignUp (signUpLink ev) = Linking_openURL (signUpLink ev).
Proof.
  unfold renderEventCard. intros Hcard Hin Hpress.
  destruct (displayEvent item) as [ev|e] eqn:Hev; [|discriminate Hcard].
  cbn [bindR] in Hcard. injection Hcard as <-.
  exists ev. split; [reflexivity|].
  unfold card, handleSignUp in *. cbn [cardContent In] in Hin.
  destruct Hin as [<- | [<- | [<- | [<- | []]]]]; try discriminate Hpress.
  - destruct (truthy (eventDescription ev)); discriminate Hpress.
  - destruct (truthy (signUpLink ev)); [|discriminate Hpress].
    repeat split; reflexivity.
Qed.

Lemma pressable_opens_resolved_link_witness :
  exists c ev,
    renderEventCard Samples.withLink 0 = Ok c
    /\ In (signUpButton (JStr "https://example.org/signup")) (cardContent c)
    /\ displayEvent Samples.withLink = Ok ev
    /\ signUpLink ev = JStr "https://example.org/signup".
Proof.
  assert (Hin : In (signUpButton (JStr "https://example.org/signup"))
                   (cardContent (card
                      {| eventStartDateTimeString := JUndefined;
                         eventDescription := JUndefined;
                         signUpLink := JStr "https://example.org/signup";
                         graphicUrl := JUndefined;
                         formattedDate := "Date not available";
                         formattedTime := "Time not available" |}))).
  { cbn. right; right; right; left. reflexivity. }
  destruct (pressable_opens_resolved_link Samples.withLink 0 _
              (signUpButton (JStr "https://example.org/signup"))
              eq_refl Hin eq_refl)
    as (ev & Hev & _ & Hel & _).
  eexists. exists ev. split; [reflexivity|]. split; [exact Hin|].
  split; [exact Hev|]. injection Hev as <-. reflexivity.
Defined.
